(** * roax.resource: method registry, dispatch, decorator and error taxonomy

    A shallow embedding of [src/roax/resource.py].  Python values are a small
    tagged union, exceptions are an explicit result type, the [methods]
    dictionary of a resource is a finite map keyed by [(kind, name)], and the
    process-wide context stack is threaded through every call. *)

From Stdlib Require Import Ascii String.
From stdpp Require Import gmap strings list fin_maps.

Local Open Scope string_scope.

(** ** Python values *)

Inductive pyval : Type :=
| VNone
| VBool (b : bool)
| VInt (z : Z)
| VStr (s : string)
| VBytes (s : string).

(** A value that is either [None] or a [str] (the [kind] and [name] arguments). *)
Abbreviation pystr := (option string).

Definition of_pystr (o : pystr) : pyval :=
  match o with
  | None => VNone
  | Some s => VStr s
  end.

(** Keyword arguments, [**params]. *)
Definition kwargs : Type := list (string * pyval).

(** Schema objects of [roax.schema] and security policies: this module passes
    them on without inspecting them. *)
Inductive schema : Type := SchemaObj (descr : string).
Inductive policy : Type := PolicyObj (descr : string).

(** An argument of a call that has a default value in the signature. *)
Inductive arg (A : Type) : Type :=
| Omitted
| Given (a : A).
Arguments Omitted {A}.
Arguments Given {A} a.

Definition or_default {A : Type} (d : A) (x : arg A) : A :=
  match x with
  | Omitted => d
  | Given a => a
  end.

(** ** Error taxonomy (lines 78-130) *)

Inductive error_class : Type :=
| CResourceError
| CBadRequest
| CUnauthorized
| CForbidden
| CNotFound
| CConflict
| CPreconditionFailed
| CInternalServerError.

(** An instance of [ResourceError] or of one of its subclasses.  The [realm]
    attribute exists on [Unauthorized] instances only. *)
Record ResourceError_obj : Type := mkResourceError {
  cls : error_class;
  detail : pyval;
  code : pyval;
  realm : option pyval
}.

Inductive exn : Type :=
| ExResource (e : ResourceError_obj)
| ExTypeError (msg : string)
| ExKeyError (key : pyval)
| ExOther (label : string).

Inductive result (A : Type) : Type :=
| Return (a : A)
| Raise (e : exn).
Arguments Return {A} a.
Arguments Raise {A} e.

(** [ResourceError.__init__(self, detail, code)] run on a fresh instance of
    class [c]. *)
Definition ResourceError___init__ (c : error_class) (detail code : pyval) : ResourceError_obj :=
  {| cls := c; detail := detail; code := code; realm := None |}.

(** The call expression [ResourceError(args...)]: both [detail] and [code] are
    required positional parameters, any other number of arguments is a
    [TypeError] raised by the call itself. *)
Definition ResourceError (args : list pyval) : result ResourceError_obj :=
  match args with
  | [detail; code] => Return (ResourceError___init__ CResourceError detail code)
  | [] => Raise (ExTypeError "__init__() missing 2 required positional arguments: 'detail' and 'code'")
  | [_] => Raise (ExTypeError "__init__() missing 1 required positional argument: 'code'")
  | _ => Raise (ExTypeError "__init__() takes 3 positional arguments")
  end.

Definition BadRequest (detail : pyval) : ResourceError_obj :=
  ResourceError___init__ CBadRequest detail (VInt 400).

(** [self.realm = realm] *)
Definition set_realm (self : ResourceError_obj) (r : pyval) : ResourceError_obj :=
  {| cls := cls self; detail := detail self; code := code self; realm := Some r |}.

Definition Unauthorized (realm : pyval) (detail : pyval) : ResourceError_obj :=
  let self := ResourceError___init__ CUnauthorized detail (VInt 401) in
  set_realm self realm.

Definition Forbidden (detail : pyval) : ResourceError_obj :=
  ResourceError___init__ CForbidden detail (VInt 403).

Definition NotFound (detail : pyval) : ResourceError_obj :=
  ResourceError___init__ CNotFound detail (VInt 404).

Definition Conflict (detail : pyval) : ResourceError_obj :=
  ResourceError___init__ CConflict detail (VInt 412).

Definition PreconditionFailed (detail : pyval) : ResourceError_obj :=
  ResourceError___init__ CPreconditionFailed detail (VInt 412).

Definition InternalServerError (detail : pyval) : ResourceError_obj :=
  ResourceError___init__ CInternalServerError detail (VInt 500).

(** [raise C(args...)]: the exception that leaves the statement. *)
Definition raised (r : result ResourceError_obj) : exn :=
  match r with
  | Return e => ExResource e
  | Raise x => x
  end.

(** The [code] attribute of an exception, when it has one. *)
Definition exn_code (x : exn) : option pyval :=
  match x with
  | ExResource e => Some (code e)
  | _ => None
  end.

(** ** Name resolution of the decorator (lines 58-64) *)

(** [s.split(sep, 1)] for a one-character separator. *)
Fixpoint split_once (sep : ascii) (s : string) : string * option string :=
  match s with
  | EmptyString => (EmptyString, None)
  | String c rest =>
      if Ascii.eqb c sep then (EmptyString, Some rest)
      else let (h, t) := split_once sep rest in (String c h, t)
  end.

Definition str_split_1 (sep : ascii) (s : string) : list string :=
  match split_once sep s with
  | (h, None) => [h]
  | (h, Some t) => [h; t]
  end.

(** Truth value of a [None]-or-[str] object. *)
Definition truthy (o : pystr) : bool :=
  match o with
  | None => false
  | Some s => negb (String.eqb s "")
  end.

(** [a or b]. *)
Definition py_or (a b : pystr) : pystr := if truthy a then a else b.

(** The pair [(_kind, _name)] computed by [decorator] from the arguments
    [kind], [name] of [method] and from [function.__name__]. *)
Definition resolve (kind name : pystr) (__name__ : string) : pystr * pystr :=
  let _kind := kind in
  let _name := name in
  let split := str_split_1 "_"%char __name__ in
  let _kind := match _kind with
               | None => Some (nth 0 split "")
               | Some _ => _kind
               end in
  let _name := if Nat.ltb 1 (length split)
               then py_or _name (Some (nth 1 split ""))
               else _name in
  (_kind, _name).

(** ** Context stack *)

(** A context frame: an ordered mapping of string keys to values. *)
Definition frame : Type := list (string * pyval).
Definition stack : Type := list frame.

(** Modelled from the spec: [roax.context] is absent from src.  Section 4.3:
    push adds a frame to the top of the shared stack, pop removes the
    most-recently pushed frame. *)
Definition push (f : frame) (stk : stack) : stack := f :: stk.

(** Modelled from the spec: [pop] of [roax.context] (absent from src), which
    removes the most-recently pushed frame. *)
Definition pop (stk : stack) : stack := tail stk.

(** A computation that runs against the shared context stack and either
    returns or raises. *)
Definition M (A : Type) : Type := stack -> result A * stack.

(** A Python callable invoked with keyword arguments, as [call] invokes the
    operations; the instance a method is bound to is part of the callable. *)
Definition callable : Type := kwargs -> M pyval.

(** Modelled from the spec: the context manager [context(frame)] of
    [roax.context] (absent from src).  Sections 3 and 4.3: the frame is pushed
    for the duration of the block and released exactly once on every exit
    path, normal return or error. *)
Definition with_context {A : Type} (f : frame) (block : M A) : M A :=
  fun stk =>
    let '(r, stk') := block (push f stk) in
    (r, pop stk').

(** ** The registry (lines 16-44) *)

Record _Method : Type := mk_Method {
  function : option callable;
  kind : pystr;
  name : pystr;
  params : option schema;
  returns : option schema;
  security : option policy
}.

Abbreviation registry := (gmap (pystr * pystr) _Method).

(** Truth value of [self.methods.get(key)]: [None] when the key is absent,
    otherwise a six-field tuple, which is never empty. *)
Definition get_truthy (o : option _Method) : bool :=
  match o with
  | None => false
  | Some _ => true
  end.

Definition repr (o : pystr) : string :=
  match o with
  | None => "None"
  | Some s => "'" +:+ s +:+ "'"
  end.

(** ["method already registered: {}".format((kind, name))] *)
Definition already_registered (kind name : pystr) : string :=
  "method already registered: (" +:+ repr kind +:+ ", " +:+ repr name +:+ ")".

(** [Resource._register_method]; the result is the updated [self.methods]. *)
Definition _register_method (methods : registry) (function : option callable)
    (kind name : pystr) (params returns : option schema) (security : option policy)
    : result registry :=
  if get_truthy (methods !! (kind, name))
  then Raise (raised (ResourceError [VStr (already_registered kind name)]))
  else Return (<[(kind, name) := mk_Method function kind name params returns security]> methods).

(** What [getattr(self, name)] yields for one [name] of [dir(self)]: a value
    that is not callable, or a callable together with its [roax_method]
    attribute when it has one. *)
Inductive attribute : Type :=
| Data (v : pyval)
| Callable (f : callable) (roax_method : option _Method).

Definition is_callable (a : attribute) : bool :=
  match a with
  | Data _ => false
  | Callable _ _ => true
  end.

(** The [for] loop of [Resource.__init__]. *)
Fixpoint register_all (functions : list attribute) (methods : registry) : result registry :=
  match functions with
  | [] => Return methods
  | Callable f (Some method) :: rest =>
      match _register_method methods (Some f) (kind method) (name method)
                             (params method) (returns method) (security method) with
      | Raise e => Raise e
      | Return methods' => register_all rest methods'
      end
  | _ :: rest => register_all rest methods
  end.

(** [Resource.__init__], given the attributes of the instance in [dir] order;
    the result is [self.methods]. *)
Definition Resource___init__ (attrs : list attribute) : result registry :=
  register_all (List.filter is_callable attrs) ∅.

(** Calling an object that may be [None]. *)
Definition py_call (f : option callable) (kw : kwargs) : M pyval :=
  match f with
  | Some g => g kw
  | None => fun stk => (Raise (ExTypeError "'NoneType' object is not callable"), stk)
  end.

(** [Resource.call(self, kind, name=None, params={})] *)
Definition call (methods : registry) (kind : pystr) (name : arg pystr) (params : arg kwargs)
    : M pyval :=
  let name := or_default None name in
  let params := or_default [] params in
  match methods !! (kind, name) with
  | None =>
      fun stk => (Raise (raised (ResourceError [VStr "resource does not provide method"; VInt 400])), stk)
  | Some m => py_call (function m) params
  end.

(** ** The [method] decorator (lines 47-75) *)

(** A function object handed to the decorator: [__self__] is the [methods]
    table of the instance the function is bound to, if it is bound. *)
Record pyfunction : Type := mk_function {
  __name__ : string;
  __call__ : callable;
  __self__ : option registry
}.

(** The frame [{"type": "method", "kind": _kind, "name": _name}]. *)
Definition method_frame (_kind _name : pystr) : frame :=
  [("type", VStr "method"); ("kind", of_pystr _kind); ("name", of_pystr _name)].

(** [wrapper(wrapped, instance, args, kwargs)], lines 65-68.  The call of
    [roax.security.apply] on line 67 is commented out in the source. *)
Definition wrapper (_kind _name : pystr) (wrapped : callable) (kw : kwargs) : M pyval :=
  with_context (method_frame _kind _name) (wrapped kw).

(** [wrapt.decorator(wrapper)(function)]: a call of the result is a call of
    [wrapper] with [function] as [wrapped]. *)
Definition wrapt_decorator (wrapper : callable -> kwargs -> M pyval) (function : callable)
    : callable :=
  fun kw => wrapper function kw.

(** Modelled from the spec: the validation collaborator of [roax.schema]
    (absent from src).  Section 6: given a schema (or [None]) and a value it
    returns the possibly normalised value, or rejects it with a detail.  Like
    any code running inside a call it may read the context stack. *)
Record Validator : Type := mk_Validator {
  check_params : option schema -> kwargs -> stack -> kwargs + pyval;
  check_returns : option schema -> pyval -> stack -> pyval + pyval
}.

(** Modelled from the spec: the decorator [roax.schema.validate(params, returns)]
    (absent from src).  Section 4.2 step 3 and section 8: the keyword arguments
    are validated against [params] before the decorated function is invoked,
    the return value is validated against [returns] after it has returned, and
    a rejection reaches the caller as a 400-coded error. *)
Definition validate (V : Validator) (params returns : option schema) (function : callable)
    : callable :=
  fun kw stk =>
    match check_params V params kw stk with
    | inr detail => (Raise (ExResource (BadRequest detail)), stk)
    | inl kw' =>
        match function kw' stk with
        | (Raise e, stk') => (Raise e, stk')
        | (Return v, stk') =>
            match check_returns V returns v stk' with
            | inr detail => (Raise (ExResource (BadRequest detail)), stk')
            | inl v' => (Return v', stk')
            end
        end
    end.

(** The callable [decorated] built on line 69. *)
Definition decorated (V : Validator) (kind name : pystr) (params returns : option schema)
    (function : pyfunction) : callable :=
  let '(_kind, _name) := resolve kind name (__name__ function) in
  validate V params returns (wrapt_decorator (wrapper _kind _name) (__call__ function)).

(** The tag [function.roax_method] left on an unbound function (line 73). *)
Definition roax_method (kind name : pystr) (params returns : option schema)
    (security : option policy) (function : pyfunction) : _Method :=
  let '(_kind, _name) := resolve kind name (__name__ function) in
  mk_Method None _kind _name params returns security.

(** What applying the decorator did besides building [decorated]. *)
Inductive registration : Type :=
| Registered (methods : registry)
| Tagged (roax_method : _Method).

(** [method(kind=..., name=..., params=..., returns=..., security=...)(function)].
    [_register_method] raises no [AttributeError], so an error of the
    immediate registration propagates. *)
Definition method (V : Validator) (kind name : pystr) (params returns : option schema)
    (security : option policy) (function : pyfunction) : result (callable * registration) :=
  let '(_kind, _name) := resolve kind name (__name__ function) in
  let decorated := decorated V kind name params returns function in
  match __self__ function with
  | Some methods =>
      match _register_method methods (Some decorated) _kind _name params returns security with
      | Raise e => Raise e
      | Return methods' => Return (decorated, Registered methods')
      end
  | None =>
      Return (decorated, Tagged (roax_method kind name params returns security function))
  end.

(** The attribute that [Resource.__init__] finds for a function decorated in a
    class body: the decorated callable, carrying the tag. *)
Definition declared (V : Validator) (kind name : pystr) (params returns : option schema)
    (security : option policy) (function : pyfunction) : attribute :=
  Callable (decorated V kind name params returns function)
           (Some (roax_method kind name params returns security function)).

(** * Vocabulary of the properties *)

(** ** Names and keys *)

Fixpoint occurs (c : ascii) (s : string) : bool :=
  match s with
  | EmptyString => false
  | String c' rest => Ascii.eqb c' c || occurs c rest
  end.

(** The message of the [TypeError] that [ResourceError(detail)] raises. *)
Definition duplicate_message : string :=
  "__init__() missing 1 required positional argument: 'code'".

(** The key under which an attribute asks to be registered. *)
Definition key_of (a : attribute) : option (pystr * pystr) :=
  match a with
  | Callable _ (Some m) => Some (kind m, name m)
  | _ => None
  end.

Definition keys (functions : list attribute) : list (pystr * pystr) := omap key_of functions.

(** The record that [__init__] stores for a tagged callable. *)
Definition stored (f : callable) (m : _Method) : _Method :=
  mk_Method (Some f) (kind m) (name m) (params m) (returns m) (security m).

(** Every record of the table sits under the key made of its own [kind] and
    [name]. *)
Definition consistent (methods : registry) : Prop :=
  ∀ k n m, methods !! (k, n) = Some m → kind m = k ∧ name m = n.

(** ** Frames and the stack *)

(** Lookup of a key in a frame. *)
Fixpoint frame_get (key : string) (f : frame) : option pyval :=
  match f with
  | [] => None
  | (k, v) :: rest => if String.eqb k key then Some v else frame_get key rest
  end.

Definition is_method_frame (fr : frame) : bool :=
  match frame_get "type" fr with
  | Some (VStr s) => String.eqb s "method"
  | _ => false
  end.

(** A callable that leaves the context stack as it found it, as every block
    that enters its own frames through [with context(...)] does. *)
Definition stack_neutral (f : callable) : Prop :=
  ∀ kw stk, (f kw stk).2 = stk.

(** ** The security hook *)

(** Modelled from the spec: the security collaborator (section 6; the module
    [roax.security] is absent from src and its import is commented out).
    Given a declared policy and the current context it permits the call
    ([None]) or fails with Unauthorized or Forbidden. *)
Definition SecurityHook : Type := policy → stack → option exn.

(** The wrapper as section 4.2 step 2 words it: push the frame, apply the
    security hook if a policy was declared, invoke the original function, pop
    the frame.  Written from the spec's words, to be compared with [wrapper]. *)
Definition wrapper_as_specified (hook : SecurityHook) (security : option policy)
    (_kind _name : pystr) (wrapped : callable) (kw : kwargs) : M pyval :=
  with_context (method_frame _kind _name)
    (fun stk =>
       match security with
       | Some p =>
           match hook p stk with
           | Some e => (Raise e, stk)
           | None => wrapped kw stk
           end
       | None => wrapped kw stk
       end).

(** ** Validation *)

(** The outcome of a validation: the accepted value, or the 400-coded error. *)
Definition verdict {A : Type} (x : A + pyval) : result A :=
  match x with
  | inl a => Return a
  | inr detail => Raise (ExResource (BadRequest detail))
  end.

(** Section 4.2 step 3 as worded: the return value [v] of the original
    function is validated while the frame of the invocation is still on the
    stack. *)
Definition returns_validated_under_frame (V : Validator) (kind name : pystr)
    (params returns : option schema) (fn : pyfunction) (kw : kwargs) (stk : stack) : Prop :=
  let fr := method_frame (resolve kind name (__name__ fn)).1 (resolve kind name (__name__ fn)).2 in
  ∀ kw' v, check_params V params kw stk = inl kw' →
           (__call__ fn kw' (fr :: stk)).1 = Return v →
           (decorated V kind name params returns fn kw stk).1
           = verdict (check_returns V returns v (fr :: stk)).

(** * Concrete resources *)

(** ** Collaborators *)

(** A validation collaborator that accepts everything. *)
Definition accept_all : Validator :=
  {| check_params := fun _ kw _ => inl kw;
     check_returns := fun _ v _ => inl v |}.

Definition is_int (v : pyval) : bool :=
  match v with
  | VInt _ => true
  | _ => false
  end.

(** A validation collaborator that requires integer parameters where a
    schema is declared and no parameters where none is, and that accepts a
    return value only while a ["method"] frame is on top of the context
    stack. *)
Definition probe : Validator :=
  {| check_params := fun s kw _ =>
       match s with
       | Some _ => if forallb (fun p => is_int p.2) kw then inl kw
                   else inr (VStr "expected int")
       | None => match kw with
                 | [] => inl kw
                 | _ => inr (VStr "unexpected parameters")
                 end
       end;
     check_returns := fun _ v stk =>
       match head stk with
       | Some fr => if is_method_frame fr then inl v else inr (VStr "no method frame")
       | None => inr (VStr "no method frame")
       end |}.

Definition str_schema : option schema := Some (SchemaObj "str").
Definition int_schema : option schema := Some (SchemaObj "{a_a: int}").

(** A security collaborator that refuses every call. *)
Definition deny_all : SecurityHook := fun _ _ => Some (ExResource (Forbidden VNone)).

Definition admin_only : option policy := Some (PolicyObj "admin").

(** ** The resource of the test-suite

    [create], the action [foo], and an operation that raises. *)

Definition create : pyfunction :=
  mk_function "create" (fun _ stk => (Return (VStr "foo"), stk)) None.

Definition action_foo : pyfunction :=
  mk_function "action_foo" (fun _ stk => (Return (VStr "hoot"), stk)) None.

Definition other : pyfunction :=
  mk_function "other" (fun _ stk => (Raise (ExKeyError (VStr "missing")), stk)) None.

(** [getattr(self, name) for name in dir(self)]: a data attribute, the three
    operations, an undecorated method. *)
Definition test_resource : list attribute :=
  [ Data VNone;
    declared accept_all None None None None None create;
    declared accept_all None None None None None action_foo;
    declared accept_all None None None None None other;
    Callable (fun _ stk => (Return VNone, stk)) None ].

(** [self.methods] of the constructed test resource. *)
Definition test_methods : registry :=
  match Resource___init__ test_resource with
  | Return methods => methods
  | Raise _ => ∅
  end.

(** ** A resource with a duplicated key *)

(** Two functions of a class body that both resolve to [("create", None)]. *)
Definition create_a : pyfunction :=
  mk_function "a" (fun _ stk => (Return (VStr "a"), stk)) None.

Definition create_b : pyfunction :=
  mk_function "b" (fun _ stk => (Return (VStr "b"), stk)) None.

Definition duplicated : list attribute :=
  [ Data VNone;
    declared accept_all (Some "create") None None None None create_a;
    declared accept_all (Some "create") None None None None create_b;
    Callable (fun _ stk => (Return VNone, stk)) None ].

(** ** A function decorated on a live instance *)

(** [action_foo] as a function bound to an instance whose table is empty. *)
Definition bound_foo : pyfunction :=
  mk_function "action_foo" (fun _ stk => (Return (VStr "hoot"), stk)) (Some ∅).

Definition bound_foo_methods : registry :=
  <[(Some "action", Some "foo") :=
      mk_Method (Some (decorated accept_all None None None None bound_foo))
                (Some "action") (Some "foo") None None admin_only]> ∅.

(** ** A resource whose operation carries an explicit name *)

(** [@method(name="x") def create(self)] in the class body. *)
Definition named_resource : list attribute :=
  [ Data VNone;
    declared accept_all None (Some "x") None None None create ].

Definition named_methods : registry :=
  match Resource___init__ named_resource with
  | Return methods => methods
  | Raise _ => ∅
  end.

(** ** Tagged attributes and a reordered resource *)

(** The attributes that [__init__] registers: callables with a
    [roax_method] attribute. *)
Definition tagged (a : attribute) : bool :=
  match a with
  | Callable _ (Some _) => true
  | _ => false
  end.

(** The attributes of the test resource in another enumeration order. *)
Definition test_resource_reordered : list attribute :=
  [ declared accept_all None None None None None other;
    Callable (fun _ stk => (Return VNone, stk)) None;
    declared accept_all None None None None None create;
    Data VNone;
    declared accept_all None None None None None action_foo ].

(** * Properties *)

(** ** Error taxonomy *)

(** C8: every concrete error kind carries the detail it was constructed with
    and the fixed code of its kind: BadRequest 400, Unauthorized 401 (and the
    realm it was given), Forbidden 403, NotFound 404, Conflict 412,
    PreconditionFailed 412, InternalServerError 500; no other kind has a
    realm attribute. *)
Theorem error_kinds_fixed_code (d r : pyval) :
  (detail (BadRequest d) = d ∧ code (BadRequest d) = VInt 400 ∧ realm (BadRequest d) = None) ∧
  (detail (Unauthorized r d) = d ∧ code (Unauthorized r d) = VInt 401
     ∧ realm (Unauthorized r d) = Some r) ∧
  (detail (Forbidden d) = d ∧ code (Forbidden d) = VInt 403 ∧ realm (Forbidden d) = None) ∧
  (detail (NotFound d) = d ∧ code (NotFound d) = VInt 404 ∧ realm (NotFound d) = None) ∧
  (detail (Conflict d) = d ∧ code (Conflict d) = VInt 412 ∧ realm (Conflict d) = None) ∧
  (detail (PreconditionFailed d) = d ∧ code (PreconditionFailed d) = VInt 412
     ∧ realm (PreconditionFailed d) = None) ∧
  (detail (InternalServerError d) = d ∧ code (InternalServerError d) = VInt 500
     ∧ realm (InternalServerError d) = None).
Proof. repeat split. Qed.

(** The base class needs both arguments. *)
Lemma ResourceError_two_args (d c : pyval) :
  ResourceError [d; c] = Return (mkResourceError CResourceError d c None).
Proof. reflexivity. Qed.

Lemma ResourceError_one_arg (d : pyval) :
  ∃ msg, raised (ResourceError [d]) = ExTypeError msg.
Proof. eexists. reflexivity. Qed.

(** ** Name resolution *)

(** [split_once] cuts at the first separator, and only there. *)
Lemma split_once_Some (sep : ascii) (s h t : string) :
  split_once sep s = (h, Some t) → s = h +:+ String sep t ∧ occurs sep h = false.
Proof.
  revert h t. induction s as [|c s IH]; intros h t; simpl; [discriminate|].
  destruct (Ascii.eqb c sep) eqn:E.
  - intros [= <- <-]. apply Ascii.eqb_eq in E as ->. done.
  - destruct (split_once sep s) as [h' t'] eqn:Hs. intros [= <- ->].
    destruct (IH h' t eq_refl) as [-> Hocc]. simpl. by rewrite E, Hocc.
Qed.

Lemma split_once_None (sep : ascii) (s : string) :
  occurs sep s = false ↔ split_once sep s = (s, None).
Proof.
  induction s as [|c s IH]; simpl; [done|].
  destruct (Ascii.eqb c sep) eqn:E; simpl.
  - split; discriminate.
  - destruct (split_once sep s) as [h' t'] eqn:Hs. rewrite IH. split.
    + by intros [= -> ->].
    + by intros [= -> ->].
Qed.

Lemma resolve_derived (fname : string) :
  resolve None None fname = (Some (split_once "_" fname).1, (split_once "_" fname).2).
Proof.
  unfold resolve, str_split_1. destruct (split_once "_" fname) as [h [t|]]; reflexivity.
Qed.

Lemma resolve_kind_is_str (kind name : pystr) (fname : string) :
  is_Some (resolve kind name fname).1.
Proof. unfold resolve. destruct kind; simpl; eauto. Qed.

(** C3: the defaults are derived as the claim says, and an explicit kind is
    kept even when it is the empty string (line 61 tests [is None]), but an
    explicit name that is the empty string does not override the name derived
    from ["create_widget"]: line 64 tests the name for truth, so the derived
    ["widget"] replaces it, although the same explicit name is kept when the
    function's name has no separator. *)
Lemma explicit_empty_name_is_overridden :
  resolve None None "create" = (Some "create", None) ∧
  resolve None None "create_widget" = (Some "create", Some "widget") ∧
  resolve (Some "") None "create_widget" = (Some "", Some "widget") ∧
  resolve None (Some "") "create" = (Some "create", Some "") ∧
  resolve None (Some "") "create_widget" = (Some "create", Some "widget") ∧
  (resolve None (Some "") "create_widget").2 ≠ Some "".
Proof. repeat (split; [reflexivity|]). discriminate. Qed.

(** How [resolve] combines explicit arguments with the names derived from
    the function's name: the derived pair is the split of the name at its
    first ["_"]; an explicit kind is always kept; an explicit non-empty name is
    always kept; an explicit empty name meets the truth test of line 64. *)
Theorem resolve_defaults_and_overrides (kind name : pystr) (fname : string) :
  resolve None None "create" = (Some "create", None) ∧
  resolve None None "create_widget" = (Some "create", Some "widget") ∧
  resolve None None fname = (Some (split_once "_" fname).1, (split_once "_" fname).2) ∧
  (∀ k, kind = Some k → (resolve kind name fname).1 = Some k) ∧
  (∀ n, name = Some n → n ≠ "" → (resolve kind name fname).2 = Some n) ∧
  (name = Some "" →
   (resolve kind name fname).2 = match (split_once "_" fname).2 with
                                 | Some derived => Some derived
                                 | None => Some ""
                                 end).
Proof.
  split; [reflexivity|]. split; [reflexivity|]. split; [apply resolve_derived|].
  unfold resolve, str_split_1. destruct (split_once "_" fname) as [h [t|]]; simpl.
  - split; [by intros k ->|]. split.
    + intros n -> Hn. unfold py_or, truthy.
      destruct (String.eqb n "") eqn:E; [by apply String.eqb_eq in E|done].
    + by intros ->.
  - split; [by intros k ->|]. split; [by intros n ->|by intros ->].
Qed.

Lemma resolve_defaults_and_overrides_witness :
  (resolve (Some "action") (Some "foo") "create_widget").1 = Some "action" ∧
  (resolve (Some "action") (Some "foo") "create_widget").2 = Some "foo" ∧
  (resolve None (Some "") "create").2 = Some "".
Proof.
  split; [|split].
  - apply (resolve_defaults_and_overrides (Some "action") (Some "foo") "create_widget").
    reflexivity.
  - apply (resolve_defaults_and_overrides (Some "action") (Some "foo") "create_widget" ).
    + reflexivity.
    + discriminate.
  - apply (resolve_defaults_and_overrides None (Some "") "create"). reflexivity.
Defined.

(** ** Registration *)

Lemma _register_method_fresh (methods : registry) f k n p r s :
  methods !! (k, n) = None →
  _register_method methods f k n p r s = Return (<[(k, n) := mk_Method f k n p r s]> methods).
Proof. intros H. unfold _register_method. by rewrite H. Qed.

Lemma _register_method_duplicate (methods : registry) f k n p r s :
  is_Some (methods !! (k, n)) →
  _register_method methods f k n p r s = Raise (ExTypeError duplicate_message).
Proof. intros [m H]. unfold _register_method. by rewrite H. Qed.

Lemma _register_method_Return (methods methods' : registry) f k n p r s :
  _register_method methods f k n p r s = Return methods' →
  methods !! (k, n) = None ∧ methods' = <[(k, n) := mk_Method f k n p r s]> methods.
Proof.
  unfold _register_method. destruct (methods !! (k, n)); simpl; [discriminate|].
  by intros [= <-].
Qed.

Lemma register_all_cons_tagged (f : callable) (m : _Method) (rest : list attribute)
    (methods : registry) :
  register_all (Callable f (Some m) :: rest) methods =
  match _register_method methods (Some f) (kind m) (name m) (params m) (returns m) (security m) with
  | Raise e => Raise e
  | Return methods' => register_all rest methods'
  end.
Proof. reflexivity. Qed.

(** A failing construction fails with the [TypeError] of the malformed
    [ResourceError(...)] call, whatever the attributes. *)
Lemma register_all_Raise (functions : list attribute) (methods : registry) (e : exn) :
  register_all functions methods = Raise e → e = ExTypeError duplicate_message.
Proof.
  revert methods. induction functions as [|a rest IH]; intros methods; [discriminate|].
  destruct a as [v|f [m|]]; [apply IH| |apply IH].
  rewrite register_all_cons_tagged.
  destruct (methods !! (kind m, name m)) as [x|] eqn:Hl.
  - rewrite _register_method_duplicate by eauto. by intros [= <-].
  - rewrite _register_method_fresh by done. apply IH.
Qed.

(** A successful construction has seen pairwise distinct keys, and stored
    every tagged callable under its own key. *)
Lemma register_all_Return (functions : list attribute) (methods methods' : registry) :
  register_all functions methods = Return methods' →
  NoDup (keys functions)
  ∧ (∀ k, k ∈ keys functions → methods !! k = None)
  ∧ (∀ k x, methods !! k = Some x → methods' !! k = Some x)
  ∧ (∀ f m, Callable f (Some m) ∈ functions → methods' !! (kind m, name m) = Some (stored f m))
  ∧ (∀ k x, methods' !! k = Some x →
            methods !! k = Some x ∨ ∃ f m, Callable f (Some m) ∈ functions
                                           ∧ k = (kind m, name m) ∧ x = stored f m).
Proof.
  revert methods. induction functions as [|a rest IH]; intros methods.
  - intros [= <-]. repeat split; [constructor|..]; try (intros; set_solver); eauto.
  - destruct a as [v|f [m|]].
    + intros H. destruct (IH _ H) as (Hnd & Hfresh & Hkeep & Hin & Hout).
      repeat split; try done.
      * intros f m Hm. apply Hin. by apply elem_of_cons in Hm as [?|?].
      * intros k x Hk. destruct (Hout k x Hk) as [?|(f & m & ? & ? & ?)]; [by left|].
        right. exists f, m. split; [by right|done].
    + rewrite register_all_cons_tagged.
      destruct (_register_method methods (Some f) (kind m) (name m) (params m) (returns m)
                  (security m)) as [methods1|e] eqn:Hr; [|discriminate].
      apply _register_method_Return in Hr as [Hnone ->].
      intros H. destruct (IH _ H) as (Hnd & Hfresh & Hkeep & Hin & Hout).
      assert (Hnotin : (kind m, name m) ∉ keys rest).
      { intros Hk. specialize (Hfresh _ Hk). by rewrite lookup_insert_eq in Hfresh. }
      repeat split.
      * simpl. by constructor.
      * intros k Hk. simpl in Hk. apply elem_of_cons in Hk as [->|Hk]; [done|].
        specialize (Hfresh _ Hk).
        destruct (decide ((kind m, name m) = k)) as [<-|Hne]; [done|].
        by rewrite lookup_insert_ne in Hfresh.
      * intros k x Hk. apply Hkeep.
        destruct (decide ((kind m, name m) = k)) as [<-|Hne]; [congruence|].
        by rewrite lookup_insert_ne.
      * intros f' m' Hm. apply elem_of_cons in Hm as [[= -> ->]|Hm]; [|by apply Hin].
        apply Hkeep. by rewrite lookup_insert_eq.
      * intros k x Hk. destruct (Hout k x Hk) as [Hk'|(f' & m' & ? & ? & ?)].
        -- destruct (decide ((kind m, name m) = k)) as [<-|Hne].
           ++ rewrite lookup_insert_eq in Hk'. injection Hk' as <-.
              right. exists f, m. split; [left|done].
           ++ rewrite lookup_insert_ne in Hk' by done. by left.
        -- right. exists f', m'. split; [by right|done].
    + intros H. destruct (IH _ H) as (Hnd & Hfresh & Hkeep & Hin & Hout).
      repeat split; try done.
      * intros f' m Hm. apply Hin. by apply elem_of_cons in Hm as [?|?].
      * intros k x Hk. destruct (Hout k x Hk) as [?|(f' & m & ? & ? & ?)]; [by left|].
        right. exists f', m. split; [by right|done].
Qed.

Lemma register_all_NoDup (functions : list attribute) (methods : registry) :
  NoDup (keys functions) → (∀ k, k ∈ keys functions → methods !! k = None) →
  ∃ methods', register_all functions methods = Return methods'.
Proof.
  revert methods. induction functions as [|a rest IH]; intros methods Hnd Hfresh.
  - by eexists.
  - destruct a as [v|f [m|]]; [by apply IH| |by apply IH].
    rewrite register_all_cons_tagged. simpl in Hnd, Hfresh.
    apply NoDup_cons in Hnd as [Hnotin Hnd].
    rewrite _register_method_fresh by (apply Hfresh; left).
    apply IH; [done|]. intros k Hk.
    rewrite lookup_insert_ne; [apply Hfresh; by right|]. by intros <-.
Qed.

Lemma keys_filter_callable (attrs : list attribute) :
  keys (List.filter is_callable attrs) = keys attrs.
Proof.
  induction attrs as [|[v|f m] rest IH]; simpl; [done|done|].
  fold (keys (List.filter is_callable rest)). fold (keys rest). by rewrite IH.
Qed.

Lemma elem_of_filter_callable (attrs : list attribute) (f : callable) (m : option _Method) :
  Callable f m ∈ List.filter is_callable attrs ↔ Callable f m ∈ attrs.
Proof. rewrite !list_elem_of_In, filter_In. simpl. tauto. Qed.

(** Construction succeeds exactly when the tagged callables have pairwise
    distinct [(kind, name)] keys; otherwise it is the construction itself
    that fails, with a [TypeError]. *)
Lemma construction_succeeds_iff (attrs : list attribute) :
  (∃ methods, Resource___init__ attrs = Return methods) ↔ NoDup (keys attrs).
Proof.
  unfold Resource___init__. split.
  - intros [methods H]. apply register_all_Return in H as [Hnd _].
    by rewrite keys_filter_callable in Hnd.
  - intros Hnd. apply register_all_NoDup; [by rewrite keys_filter_callable|].
    intros k _. apply lookup_empty.
Qed.

Lemma construction_fails_iff (attrs : list attribute) :
  Resource___init__ attrs = Raise (ExTypeError duplicate_message) ↔ ¬ NoDup (keys attrs).
Proof.
  split.
  - intros H Hnd. apply construction_succeeds_iff in Hnd as [m Hm]. congruence.
  - intros Hnd. destruct (Resource___init__ attrs) as [m|e] eqn:H.
    + destruct Hnd. apply construction_succeeds_iff. eauto.
    + unfold Resource___init__ in H. by apply register_all_Raise in H as ->.
Qed.

(** C1: constructing a resource whose operations [a] and [b] both resolve to
    [("create", None)] does fail during construction, but the exception is the
    [TypeError] of calling [ResourceError] without its [code] argument, not a
    [ResourceError]. *)
Theorem duplicate_registration_raises_TypeError :
  key_of (declared accept_all (Some "create") None None None None create_a) = Some (Some "create", None) ∧
  key_of (declared accept_all (Some "create") None None None None create_b) = Some (Some "create", None) ∧
  Resource___init__ duplicated
    = Raise (ExTypeError "__init__() missing 1 required positional argument: 'code'") ∧
  (∀ e, Resource___init__ duplicated ≠ Raise (ExResource e)).
Proof.
  assert (H : Resource___init__ duplicated = Raise (ExTypeError duplicate_message)).
  { apply construction_fails_iff. unfold duplicated, keys. simpl.
    intros Hnd. apply NoDup_cons in Hnd as [Hnotin _]. apply Hnotin. left. }
  split; [reflexivity|]. split; [reflexivity|]. split; [exact H|].
  intros e. rewrite H. discriminate.
Qed.

(** ** The table invariant *)

Lemma consistent_empty : consistent ∅.
Proof. intros k n m H. by rewrite lookup_empty in H. Qed.

Lemma consistent_register (methods methods' : registry) f k n p r s :
  consistent methods →
  _register_method methods f k n p r s = Return methods' →
  consistent methods'.
Proof.
  intros Hc Hr. apply _register_method_Return in Hr as [_ ->].
  intros k' n' m. destruct (decide ((k, n) = (k', n'))) as [[= <- <-]|Hne].
  - rewrite lookup_insert_eq. by intros [= <-].
  - rewrite lookup_insert_ne by done. apply Hc.
Qed.

Lemma consistent_register_all (functions : list attribute) (methods methods' : registry) :
  consistent methods → register_all functions methods = Return methods' → consistent methods'.
Proof.
  revert methods. induction functions as [|a rest IH]; intros methods Hc.
  - by intros [= <-].
  - destruct a as [v|f [m|]]; [by apply IH| |by apply IH].
    rewrite register_all_cons_tagged.
    destruct (_register_method methods (Some f) (kind m) (name m) (params m) (returns m)
                (security m)) as [methods1|e] eqn:Hr; [|discriminate].
    apply IH. by eapply consistent_register.
Qed.

(** C9: after a successful construction every record of the table has the
    kind and name of its key, and every registration, whether by
    [_register_method] directly or by decorating a bound function, preserves
    this. *)
Theorem registry_keys_match_records :
  (∀ attrs methods, Resource___init__ attrs = Return methods → consistent methods) ∧
  (∀ methods methods' f k n p r s,
     consistent methods → _register_method methods f k n p r s = Return methods' →
     consistent methods') ∧
  (∀ V k n p r s fn methods d methods',
     __self__ fn = Some methods → consistent methods →
     method V k n p r s fn = Return (d, Registered methods') → consistent methods').
Proof.
  split; [|split].
  - intros attrs methods H. eapply consistent_register_all; [apply consistent_empty|exact H].
  - intros *. apply consistent_register.
  - intros V k n p r s fn methods d methods' Hself Hc. unfold method.
    destruct (resolve k n (__name__ fn)) as [_k _n]. rewrite Hself.
    destruct (_register_method methods _ _k _n p r s) as [m1|e] eqn:Hr; [|discriminate].
    intros [= _ <-]. by eapply consistent_register.
Qed.

Lemma registry_keys_match_records_witness :
  Resource___init__ test_resource = Return test_methods ∧ consistent test_methods.
Proof.
  split; [reflexivity|].
  apply (proj1 registry_keys_match_records test_resource). reflexivity.
Defined.

(** ** Dispatch *)

(** The table of a constructed resource holds callables only. *)
Lemma constructed_functions_callable (attrs : list attribute) (methods : registry)
    (key : pystr * pystr) (m : _Method) :
  Resource___init__ attrs = Return methods → methods !! key = Some m → is_Some (function m).
Proof.
  unfold Resource___init__. intros Hinit Hm.
  apply register_all_Return in Hinit as (_ & _ & _ & _ & Hout).
  destruct (Hout key m Hm) as [Hempty|(f & tag & _ & _ & ->)].
  - by rewrite lookup_empty in Hempty.
  - by eexists.
Qed.

(** C2: a lookup miss makes [call] raise a [ResourceError] whose code is 400;
    on a hit [call] is the stored function applied to the keyword arguments:
    same result, same error, same effect on the context stack; and in the
    table of a constructed resource every hit has such a function. *)
Theorem call_miss_400_hit_dispatches (methods : registry) (kind name : pystr)
    (kw : kwargs) (stk : stack) :
  (methods !! (kind, name) = None →
   ∃ e, call methods kind (Given name) (Given kw) stk = (Raise (ExResource e), stk)
        ∧ cls e = CResourceError ∧ code e = VInt 400) ∧
  (∀ m f, methods !! (kind, name) = Some m → function m = Some f →
          call methods kind (Given name) (Given kw) stk = f kw stk) ∧
  (∀ attrs m, Resource___init__ attrs = Return methods → methods !! (kind, name) = Some m →
              ∃ f, function m = Some f
                   ∧ call methods kind (Given name) (Given kw) stk = f kw stk).
Proof.
  cbv beta delta [call or_default] iota zeta. split; [|split].
  - intros ->. eexists. split; [reflexivity|]. split; reflexivity.
  - intros m f -> Hf. by rewrite Hf.
  - intros attrs m Hinit Hm.
    destruct (constructed_functions_callable attrs methods _ m Hinit Hm) as [f Hf].
    exists f. split; [done|]. by rewrite Hm, Hf.
Qed.

Lemma call_miss_400_hit_dispatches_witness :
  (∃ e, call test_methods (Some "delete") (Given None) (Given []) []
        = (Raise (ExResource e), []) ∧ cls e = CResourceError ∧ code e = VInt 400) ∧
  call test_methods (Some "other") (Given None) (Given []) []
  = (Raise (ExKeyError (VStr "missing")), []).
Proof.
  split.
  - apply (call_miss_400_hit_dispatches test_methods (Some "delete") None [] []).
    reflexivity.
  - etransitivity; [|reflexivity].
    apply (proj1 (proj2 (call_miss_400_hit_dispatches test_methods (Some "other") None [] []))
             (mk_Method (Some (decorated accept_all None None None None other))
                        (Some "other") None None None None)
             (decorated accept_all None None None None other) eq_refl eq_refl).
Defined.

(** ** Dispatch of operations without a name *)

Lemma roax_method_fields (kind name : pystr) (params returns : option schema)
    (security : option policy) (fn : pyfunction) :
  roax_method kind name params returns security fn
  = mk_Method None (resolve kind name (__name__ fn)).1 (resolve kind name (__name__ fn)).2
              params returns security.
Proof. unfold roax_method. by destruct (resolve kind name (__name__ fn)). Qed.

(** After a successful construction each declared operation is in the table,
    under its resolved key, with the decorated callable as its function. *)
Lemma declared_is_registered (V : Validator) (attrs : list attribute) (methods : registry)
    (kind name : pystr) (params returns : option schema) (security : option policy)
    (fn : pyfunction) :
  declared V kind name params returns security fn ∈ attrs →
  Resource___init__ attrs = Return methods →
  methods !! resolve kind name (__name__ fn)
  = Some (mk_Method (Some (decorated V kind name params returns fn))
                    (resolve kind name (__name__ fn)).1 (resolve kind name (__name__ fn)).2
                    params returns security).
Proof.
  intros Hin Hinit. unfold Resource___init__ in Hinit.
  apply register_all_Return in Hinit as (_ & _ & _ & Hreg & _).
  unfold declared in Hin. apply elem_of_filter_callable in Hin.
  specialize (Hreg _ _ Hin). rewrite roax_method_fields in Hreg.
  destruct (resolve kind name (__name__ fn)) as [_k _n]. exact Hreg.
Qed.

(** C10, as stated, fails: the name of [create] has no separator, but
    declared with the explicit name ["x"] the operation is registered under
    [("create", "x")], nothing is under [("create", None)], and
    [call("create")] with the name omitted is the 400-coded lookup failure
    and not a dispatch to the operation. *)
Lemma explicit_name_not_reached_without_name :
  occurs "_" (__name__ create) = false ∧
  resolve None (Some "x") (__name__ create) = (Some "create", Some "x") ∧
  Resource___init__ named_resource = Return named_methods ∧
  function <$> named_methods !! (Some "create", Some "x")
    = Some (Some (decorated accept_all None (Some "x") None None create)) ∧
  named_methods !! (Some "create", None) = None ∧
  call named_methods (Some "create") Omitted Omitted []
    = (Raise (ExResource (mkResourceError CResourceError
                            (VStr "resource does not provide method") (VInt 400) None)), []) ∧
  call named_methods (Some "create") Omitted Omitted []
    ≠ decorated accept_all None (Some "x") None None create [] [].
Proof. repeat (split; [reflexivity|]). discriminate. Qed.

(** C10, amended: [call] with the name omitted is [call] with name [None]; an
    operation declared without an explicit name on a function whose name has
    no separator resolves to name [None], is registered under [(kind, None)],
    and [call(kind)] with the name omitted dispatches to it. *)
Theorem call_without_name_dispatches (V : Validator) (attrs : list attribute)
    (methods : registry) (kind : pystr) (params returns : option schema)
    (security : option policy) (fn : pyfunction) (kw : arg kwargs) :
  occurs "_" (__name__ fn) = false →
  declared V kind None params returns security fn ∈ attrs →
  Resource___init__ attrs = Return methods →
  let _kind := (resolve kind None (__name__ fn)).1 in
  (∀ k, call methods k Omitted kw = call methods k (Given None) kw) ∧
  resolve kind None (__name__ fn) = (_kind, None) ∧
  (∃ m, methods !! (_kind, None) = Some m
        ∧ function m = Some (decorated V kind None params returns fn)) ∧
  call methods _kind Omitted kw = decorated V kind None params returns fn (or_default [] kw).
Proof.
  intros Hsep Hin Hinit _kind.
  pose proof (declared_is_registered V attrs methods kind None params returns security fn
                Hin Hinit) as Hreg.
  assert (Hres : resolve kind None (__name__ fn) = (_kind, None)).
  { subst _kind. apply split_once_None in Hsep. unfold resolve, str_split_1.
    rewrite Hsep. by destruct kind. }
  rewrite Hres in Hreg. simpl in Hreg.
  split; [done|]. split; [done|]. split; [eauto|].
  cbv beta delta [call or_default] iota zeta. fold (or_default [] kw).
  by rewrite Hreg.
Qed.

Lemma call_without_name_dispatches_witness :
  Resource___init__ test_resource = Return test_methods
  ∧ call test_methods (Some "create") Omitted Omitted [] = (Return (VStr "foo"), []).
Proof.
  assert (Hinit : Resource___init__ test_resource = Return test_methods) by reflexivity.
  split; [exact Hinit|].
  assert (Hin : declared accept_all None None None None None create ∈ test_resource)
    by (right; left).
  destruct (call_without_name_dispatches accept_all test_resource test_methods None None None
              None create Omitted eq_refl Hin Hinit) as (_ & _ & _ & H).
  simpl in H. rewrite H. reflexivity.
Defined.

(** ** The context stack around an invocation *)

Lemma wrapper_runs_under_frame (_kind _name : pystr) (wrapped : callable) (kw : kwargs)
    (stk : stack) :
  wrapt_decorator (wrapper _kind _name) wrapped kw stk
  = ((wrapped kw (method_frame _kind _name :: stk)).1,
     pop (wrapped kw (method_frame _kind _name :: stk)).2).
Proof.
  unfold wrapt_decorator, wrapper, with_context, push.
  by destruct (wrapped kw (method_frame _kind _name :: stk)).
Qed.

Lemma wrapper_balanced (_kind _name : pystr) (wrapped : callable) (kw : kwargs) (stk : stack) :
  stack_neutral wrapped →
  wrapt_decorator (wrapper _kind _name) wrapped kw stk
  = ((wrapped kw (method_frame _kind _name :: stk)).1, stk).
Proof. intros Hn. rewrite wrapper_runs_under_frame. by rewrite Hn. Qed.

Lemma validate_stack_neutral (V : Validator) (params returns : option schema) (f : callable) :
  stack_neutral f → stack_neutral (validate V params returns f).
Proof.
  intros Hn kw stk. unfold validate.
  destruct (check_params V params kw stk) as [kw'|d]; [|done].
  specialize (Hn kw' stk). destruct (f kw' stk) as [[v|e] stk']; simpl in *; [|done].
  by destruct (check_returns V returns v stk').
Qed.

Lemma decorated_unfold (V : Validator) (kind name : pystr) (params returns : option schema)
    (fn : pyfunction) :
  decorated V kind name params returns fn
  = validate V params returns
      (wrapt_decorator (wrapper (resolve kind name (__name__ fn)).1
                                (resolve kind name (__name__ fn)).2) (__call__ fn)).
Proof. unfold decorated. by destruct (resolve kind name (__name__ fn)). Qed.

(** A decorated operation is itself stack-neutral, so operations may call
    one another. *)
Lemma decorated_stack_neutral (V : Validator) (kind name : pystr)
    (params returns : option schema) (fn : pyfunction) :
  stack_neutral (__call__ fn) → stack_neutral (decorated V kind name params returns fn).
Proof.
  intros Hn. rewrite decorated_unfold. apply validate_stack_neutral.
  intros kw stk. by rewrite wrapper_balanced.
Qed.

(** C4: the wrapper of a decorated operation runs the original function with
    the frame [{type: "method", kind, name}] of the resolved kind and name
    pushed on top of the caller's stack, and whether the function returns or
    raises, the stack after the invocation is the stack before it; the same
    holds for the whole decorated operation, validation included. *)
Theorem context_stack_balanced (V : Validator) (kind name : pystr)
    (params returns : option schema) (fn : pyfunction) (kw : kwargs) (stk : stack) :
  stack_neutral (__call__ fn) →
  let _kind := (resolve kind name (__name__ fn)).1 in
  let _name := (resolve kind name (__name__ fn)).2 in
  let fr := method_frame _kind _name in
  (frame_get "type" fr = Some (VStr "method") ∧ frame_get "kind" fr = Some (of_pystr _kind)
     ∧ frame_get "name" fr = Some (of_pystr _name)) ∧
  wrapt_decorator (wrapper _kind _name) (__call__ fn) kw stk
    = ((__call__ fn kw (fr :: stk)).1, stk) ∧
  (∀ kw' e, check_params V params kw stk = inl kw' →
            (__call__ fn kw' (fr :: stk)).1 = Raise e →
            decorated V kind name params returns fn kw stk = (Raise e, stk)) ∧
  (decorated V kind name params returns fn kw stk).2 = stk.
Proof.
  intros Hn _kind _name fr. split; [by repeat split|]. split; [by apply wrapper_balanced|].
  split; [|by apply decorated_stack_neutral].
  intros kw' e Hp He. rewrite decorated_unfold. unfold validate. rewrite Hp.
  rewrite wrapper_balanced by done. fold _kind _name fr.
  destruct (__call__ fn kw' (fr :: stk)) as [r stk']. simpl in He. by subst r.
Qed.

Lemma context_stack_balanced_witness :
  decorated accept_all None None None None other [] [[("user", VStr "alice")]]
  = (Raise (ExKeyError (VStr "missing")), [[("user", VStr "alice")]]).
Proof.
  assert (Hn : stack_neutral (__call__ other)) by (intros kw stk; reflexivity).
  destruct (context_stack_balanced accept_all None None None None other []
              [[("user", VStr "alice")]] Hn) as (_ & _ & H & _).
  apply (H []); reflexivity.
Defined.

(** ** The security hook *)

(** C5, as stated, fails: with a policy declared and a security collaborator
    that refuses every call, an invocation as specified raises Forbidden,
    while the decorated operation of the source runs the function and returns
    its result: the hook is not applied. *)
Lemma security_hook_is_not_applied :
  method accept_all None None None None admin_only action_foo
    = Return (decorated accept_all None None None None action_foo,
              Tagged (mk_Method None (Some "action") (Some "foo") None None admin_only)) ∧
  decorated accept_all None None None None action_foo [] [] = (Return (VStr "hoot"), []) ∧
  wrapper_as_specified deny_all admin_only (Some "action") (Some "foo") (__call__ action_foo) [] []
    = (Raise (ExResource (Forbidden VNone)), []) ∧
  wrapper (Some "action") (Some "foo") (__call__ action_foo) [] []
    ≠ wrapper_as_specified deny_all admin_only (Some "action") (Some "foo")
        (__call__ action_foo) [] [].
Proof. repeat split. discriminate. Qed.

(** C5, amended: a declared security policy is recorded in the operation's
    record and nothing more; no security hook is applied on invocation: the
    wrapper pushes the frame and invokes the original function directly,
    that is, it behaves as the specified wrapper of an operation without
    policy whatever the collaborator, and the callable that the decorator
    builds is the same for every declared policy. *)
Theorem security_policy_only_recorded (hook : SecurityHook) (V : Validator) (kind name : pystr)
    (params returns : option schema) (sec : option policy) (fn : pyfunction) :
  security (roax_method kind name params returns sec fn) = sec ∧
  (∀ _kind _name wrapped kw stk,
     wrapper _kind _name wrapped kw stk
     = wrapper_as_specified hook None _kind _name wrapped kw stk) ∧
  (∀ d reg, method V kind name params returns sec fn = Return (d, reg) →
            d = decorated V kind name params returns fn) ∧
  (∀ methods m, __self__ fn = Some methods →
                methods !! resolve kind name (__name__ fn) = None →
                method V kind name params returns sec fn
                = Return (decorated V kind name params returns fn, Registered m) →
                security <$> m !! resolve kind name (__name__ fn) = Some sec).
Proof.
  split; [by rewrite roax_method_fields|]. split; [done|]. split.
  - intros d reg. unfold method. destruct (resolve kind name (__name__ fn)) as [_k _n].
    destruct (__self__ fn) as [methods|]; [|by intros [= <- _]].
    destruct (_register_method methods _ _k _n params returns sec); [|discriminate].
    by intros [= <- _].
  - intros methods m Hself Hfresh. unfold method.
    destruct (resolve kind name (__name__ fn)) as [_k _n]. rewrite Hself.
    rewrite _register_method_fresh by done. intros [= <-].
    by rewrite lookup_insert_eq.
Qed.

Lemma security_policy_only_recorded_witness :
  method accept_all None None None None admin_only bound_foo
    = Return (decorated accept_all None None None None bound_foo, Registered bound_foo_methods) ∧
  security <$> bound_foo_methods !! (Some "action", Some "foo") = Some admin_only.
Proof.
  assert (H : method accept_all None None None None admin_only bound_foo
              = Return (decorated accept_all None None None None bound_foo,
                        Registered bound_foo_methods)) by reflexivity.
  split; [exact H|].
  destruct (security_policy_only_recorded deny_all accept_all None None None None admin_only
              bound_foo) as (_ & _ & _ & Hrec).
  apply (Hrec ∅ bound_foo_methods eq_refl (lookup_empty _) H).
Defined.

(** ** Validation around the wrapper *)

(** C6, as stated, fails: a collaborator that accepts return values only
    under a method frame rejects the result of [action_foo], because the frame
    has been popped when the return value is validated. *)
Lemma returns_not_validated_under_frame :
  decorated probe None None None str_schema action_foo [] []
    = (Raise (ExResource (BadRequest (VStr "no method frame"))), []) ∧
  ¬ returns_validated_under_frame probe None None None str_schema action_foo [] [].
Proof.
  split; [reflexivity|]. intros H. specialize (H [] (VStr "hoot") eq_refl eq_refl).
  discriminate H.
Qed.

(** C6, amended: the return value is validated against the returns schema
    after the original function has returned and after the frame pushed for
    the invocation has been popped: validation runs on the stack as it was
    before the invocation, and its verdict is the outcome of the call. *)
Theorem returns_validated_after_pop (V : Validator) (kind name : pystr)
    (params returns : option schema) (fn : pyfunction) (kw kw' : kwargs) (stk : stack)
    (v : pyval) :
  stack_neutral (__call__ fn) →
  check_params V params kw stk = inl kw' →
  (__call__ fn kw' (method_frame (resolve kind name (__name__ fn)).1
                                  (resolve kind name (__name__ fn)).2 :: stk)).1 = Return v →
  decorated V kind name params returns fn kw stk
  = (verdict (check_returns V returns v stk), stk).
Proof.
  intros Hn Hp Hv. rewrite decorated_unfold. unfold validate. rewrite Hp.
  rewrite wrapper_balanced by done. rewrite Hv.
  by destruct (check_returns V returns v stk).
Qed.

Lemma returns_validated_after_pop_witness :
  decorated probe None None None str_schema action_foo [] [method_frame (Some "create") None]
  = (Return (VStr "hoot"), [method_frame (Some "create") None]).
Proof.
  apply (returns_validated_after_pop probe None None None str_schema action_foo [] []
           [method_frame (Some "create") None] (VStr "hoot")).
  - intros kw stk. reflexivity.
  - reflexivity.
  - reflexivity.
Defined.

(** C7: when the validation collaborator rejects the keyword arguments
    against the declared params schema, the invocation fails with a 400-coded
    error, the context stack is untouched, and the outcome is the same
    whatever the original function is: it is never invoked. *)
Theorem rejected_params_never_reach_function (V : Validator) (kind name : pystr)
    (s : schema) (returns : option schema) (fn : pyfunction) (kw : kwargs) (stk : stack)
    (d : pyval) :
  check_params V (Some s) kw stk = inr d →
  (∃ e, decorated V kind name (Some s) returns fn kw stk = (Raise e, stk)
        ∧ exn_code e = Some (VInt 400)) ∧
  (∀ body, decorated V kind name (Some s) returns (mk_function (__name__ fn) body (__self__ fn))
             kw stk
           = decorated V kind name (Some s) returns fn kw stk).
Proof.
  intros Hrej. split.
  - exists (ExResource (BadRequest d)). split; [|reflexivity].
    rewrite decorated_unfold. unfold validate. by rewrite Hrej.
  - intros body. rewrite !decorated_unfold. unfold validate. by rewrite Hrej.
Qed.

Lemma rejected_params_never_reach_function_witness :
  ∃ e, decorated probe None None int_schema None action_foo [("a_a", VStr "one")] []
       = (Raise e, []) ∧ exn_code e = Some (VInt 400).
Proof.
  apply (rejected_params_never_reach_function probe None None (SchemaObj "{a_a: int}") None
           action_foo [("a_a", VStr "one")] [] (VStr "expected int")).
  reflexivity.
Defined.


(** * Further properties of the registry *)

(** ** Construction *)

Lemma register_all_size (functions : list attribute) (methods methods' : registry) :
  register_all functions methods = Return methods' →
  size methods' = size methods + length (keys functions).
Proof.
  revert methods. induction functions as [|a rest IH]; intros methods.
  - intros [= <-]. simpl. lia.
  - destruct a as [v|f [m|]]; [apply IH| |apply IH].
    rewrite register_all_cons_tagged.
    destruct (_register_method methods (Some f) (kind m) (name m) (params m) (returns m)
                (security m)) as [methods1|e] eqn:Hr; [|discriminate].
    apply _register_method_Return in Hr as [Hnone ->].
    intros H. rewrite (IH _ H), map_size_insert_None by done. simpl. lia.
Qed.

Lemma constructed_lookup_iff (attrs : list attribute) (methods : registry)
    (key : pystr * pystr) (x : _Method) :
  Resource___init__ attrs = Return methods →
  methods !! key = Some x ↔
  ∃ f m, Callable f (Some m) ∈ attrs ∧ key = (kind m, name m) ∧ x = stored f m.
Proof.
  unfold Resource___init__. intros Hinit.
  apply register_all_Return in Hinit as (_ & _ & _ & Hin & Hout). split.
  - intros Hk. destruct (Hout key x Hk) as [Hempty|(f & m & Hm & -> & ->)].
    + by rewrite lookup_empty in Hempty.
    + exists f, m. by rewrite <-elem_of_filter_callable.
  - intros (f & m & Hm & -> & ->). apply Hin. by apply elem_of_filter_callable.
Qed.

Lemma NoDup_test_keys : NoDup (keys test_resource).
Proof. apply construction_succeeds_iff. by exists test_methods. Qed.

(** X1: for an instance whose attributes can all be read and whose
    [roax_method] attributes are the tags left by the decorator, the
    registration loop returns a table exactly when the tagged callables have
    pairwise distinct [(kind, name)] keys, and otherwise fails in
    [_register_method], with the [TypeError] of the one-argument
    [ResourceError] call. *)
Theorem construction_outcome (attrs : list attribute) :
  (NoDup (keys attrs) → ∃ methods, Resource___init__ attrs = Return methods) ∧
  (∀ methods, Resource___init__ attrs = Return methods → NoDup (keys attrs)) ∧
  (¬ NoDup (keys attrs) → Resource___init__ attrs = Raise (ExTypeError duplicate_message)) ∧
  (∀ e, Resource___init__ attrs = Raise e →
        e = ExTypeError duplicate_message ∧ ¬ NoDup (keys attrs)).
Proof.
  split; [apply construction_succeeds_iff|].
  split; [intros m H; apply construction_succeeds_iff; eauto|].
  split; [apply construction_fails_iff|].
  intros e H. assert (e = ExTypeError duplicate_message) as ->.
  { unfold Resource___init__ in H. by apply register_all_Raise in H. }
  split; [done|]. by apply construction_fails_iff.
Qed.

Lemma construction_outcome_witness :
  (∃ methods, Resource___init__ test_resource = Return methods) ∧
  Resource___init__ duplicated = Raise (ExTypeError duplicate_message).
Proof.
  split.
  - apply (proj1 (construction_outcome test_resource)). exact NoDup_test_keys.
  - apply (proj1 (proj2 (proj2 (construction_outcome duplicated)))).
    unfold duplicated, keys. simpl.
    intros Hnd. apply NoDup_cons in Hnd as [Hnotin _]. apply Hnotin. left.
Defined.

(** X2: the table of a constructed resource holds exactly the tagged
    callables of the instance, each under the key of its tag and with the
    callable itself as function; data attributes and undecorated callables
    leave no entry, and the table has as many entries as there are tagged
    callables. *)
Theorem constructed_table_contents (attrs : list attribute) (methods : registry) :
  Resource___init__ attrs = Return methods →
  (∀ key x, methods !! key = Some x ↔
            ∃ f m, Callable f (Some m) ∈ attrs ∧ key = (kind m, name m) ∧ x = stored f m) ∧
  size methods = length (keys attrs).
Proof.
  intros Hinit. split.
  - intros key x. by apply constructed_lookup_iff.
  - unfold Resource___init__ in Hinit. apply register_all_size in Hinit.
    by rewrite Hinit, map_size_empty, keys_filter_callable.
Qed.

Lemma constructed_table_contents_witness :
  size test_methods = 3 ∧
  (test_methods !! (Some "action", Some "foo")
   = Some (stored (decorated accept_all None None None None action_foo)
                  (roax_method None None None None None action_foo))).
Proof.
  destruct (constructed_table_contents test_resource test_methods eq_refl) as [Hl Hs].
  split; [exact Hs|].
  apply Hl. exists (decorated accept_all None None None None action_foo),
                  (roax_method None None None None None action_foo).
  split; [|split; reflexivity]. right. right. left.
Defined.

(** X3: the outcome of construction does not depend on the order in which
    [dir] enumerates the attributes: two enumerations of the same attributes
    give the same table, or both fail with the same error. *)
Theorem construction_order_irrelevant (attrs attrs' : list attribute) :
  attrs ≡ₚ attrs' → Resource___init__ attrs = Resource___init__ attrs'.
Proof.
  intros Hp.
  assert (Hnd : NoDup (keys attrs) ↔ NoDup (keys attrs')).
  { unfold keys. by rewrite Hp. }
  destruct (Resource___init__ attrs) as [m1|e1] eqn:H1;
    destruct (Resource___init__ attrs') as [m2|e2] eqn:H2.
  - f_equal. apply map_eq. intros key. apply option_eq. intros x.
    rewrite (constructed_lookup_iff attrs m1 key x H1).
    rewrite (constructed_lookup_iff attrs' m2 key x H2).
    split; intros (f & m & Hm & ? & ?); exists f, m; (split; [|done]).
    + by rewrite <-Hp.
    + by rewrite Hp.
  - exfalso. assert (Hok : NoDup (keys attrs')).
    { apply Hnd, construction_succeeds_iff. eauto. }
    apply construction_succeeds_iff in Hok as [m2 Hm2]. congruence.
  - exfalso. assert (Hok : NoDup (keys attrs)).
    { apply Hnd, construction_succeeds_iff. eauto. }
    apply construction_succeeds_iff in Hok as [m1 Hm1]. congruence.
  - unfold Resource___init__ in H1, H2.
    apply register_all_Raise in H1 as ->. by apply register_all_Raise in H2 as ->.
Qed.

Lemma construction_order_irrelevant_witness :
  Resource___init__ test_resource_reordered = Return test_methods.
Proof.
  rewrite <-(construction_order_irrelevant test_resource test_resource_reordered).
  - reflexivity.
  - unfold test_resource, test_resource_reordered.
    set (a := Data VNone).
    set (b := declared accept_all None None None None None create).
    set (c := declared accept_all None None None None None action_foo).
    set (d := declared accept_all None None None None None other).
    set (e := Callable (fun _ stk => (Return VNone, stk)) None).
    apply (Permutation_trans (l' := [d; a; b; c; e])).
    + change ([a; b; c] ++ d :: [e] ≡ₚ d :: [a; b; c] ++ [e]).
      symmetry. apply Permutation_middle.
    + constructor.
      apply (Permutation_trans (l' := [e; a; b; c])).
      * change ([a; b; c] ++ e :: [] ≡ₚ e :: [a; b; c] ++ []).
        symmetry. apply Permutation_middle.
      * constructor. apply Permutation_swap.
Defined.

(** X4: data attributes and callables without a [roax_method] attribute play
    no part in construction: dropping them from the instance changes neither
    the table nor the failure. *)
Theorem untagged_attributes_ignored (attrs : list attribute) :
  Resource___init__ attrs = Resource___init__ (List.filter tagged attrs).
Proof.
  unfold Resource___init__. generalize (∅ : registry).
  induction attrs as [|a rest IH]; intros methods; [done|].
  destruct a as [v|f [m|]]; simpl.
  - apply IH.
  - destruct (_register_method methods (Some f) (kind m) (name m) (params m) (returns m)
                (security m)); [apply IH|done].
  - apply IH.
Qed.

(** ** Registration and dispatch *)

(** X5: after a successful registration of a callable under [(kind, name)],
    [call] on that key is the callable, [call] on every other key behaves as
    it did before, and before the registration [call] on that key was the
    400-coded lookup failure. *)
Theorem register_then_call (methods methods' : registry) (f : callable) (k n : pystr)
    (p r : option schema) (s : option policy) :
  _register_method methods (Some f) k n p r s = Return methods' →
  (∀ kw, call methods' k (Given n) (Given kw) = f kw) ∧
  (∀ k' n' kw, (k', n') ≠ (k, n) →
               call methods' k' (Given n') (Given kw) = call methods k' (Given n') (Given kw)) ∧
  (∀ kw stk, ∃ e, call methods k (Given n) (Given kw) stk = (Raise (ExResource e), stk)
                  ∧ code e = VInt 400).
Proof.
  intros Hr. apply _register_method_Return in Hr as [Hnone ->].
  cbv beta delta [call or_default] iota zeta. split; [|split].
  - intros kw. by rewrite lookup_insert_eq.
  - intros k' n' kw Hne. by rewrite lookup_insert_ne.
  - intros kw stk. rewrite Hnone. by eexists.
Qed.

Lemma register_then_call_witness :
  ∃ methods', _register_method test_methods (Some (__call__ create_a)) (Some "query")
                (Some "a") None None None = Return methods'
              ∧ call methods' (Some "query") (Given (Some "a")) (Given []) []
                = (Return (VStr "a"), [])
              ∧ call methods' (Some "create") (Given None) (Given []) []
                = (Return (VStr "foo"), []).
Proof.
  eexists. split; [reflexivity|].
  destruct (register_then_call test_methods _ (__call__ create_a) (Some "query") (Some "a")
              None None None eq_refl) as (Hhit & Hother & _).
  split.
  - by rewrite Hhit.
  - rewrite Hother by discriminate. reflexivity.
Defined.

(** X6: a successful registration adds exactly one entry and leaves every
    earlier entry as it was, and from then on every further registration
    under the same key fails, whatever is being registered. *)
Theorem register_at_most_once (methods methods' : registry) (f : option callable)
    (k n : pystr) (p r : option schema) (s : option policy) :
  _register_method methods f k n p r s = Return methods' →
  (∀ key x, methods !! key = Some x → methods' !! key = Some x) ∧
  size methods' = S (size methods) ∧
  (∀ f' p' r' s',
     _register_method methods' f' k n p' r' s' = Raise (ExTypeError duplicate_message)).
Proof.
  intros Hr. apply _register_method_Return in Hr as [Hnone ->]. split; [|split].
  - intros key x Hk. rewrite lookup_insert_ne; [done|]. intros <-. congruence.
  - by apply map_size_insert_None.
  - intros f' p' r' s'. apply _register_method_duplicate. rewrite lookup_insert_eq. eauto.
Qed.

Lemma register_at_most_once_witness :
  ∃ methods', _register_method test_methods None (Some "query") None None None None
              = Return methods'
              ∧ size methods' = 4
              ∧ _register_method methods' (Some (__call__ create)) (Some "query") None
                  str_schema None admin_only = Raise (ExTypeError duplicate_message).
Proof.
  eexists. split; [reflexivity|].
  destruct (register_at_most_once test_methods _ None (Some "query") None None None None
              eq_refl) as (_ & Hsize & Hdup).
  split; [rewrite Hsize; reflexivity|apply Hdup].
Defined.

(** X7: every declared operation of a constructed resource is reached by
    [call] at its resolved kind and name, and [call] on a key that no tagged
    callable of the instance carries is the 400-coded lookup failure. *)
Theorem constructed_resource_dispatch (V : Validator) (attrs : list attribute)
    (methods : registry) :
  Resource___init__ attrs = Return methods →
  (∀ kind name params returns sec fn kw,
     declared V kind name params returns sec fn ∈ attrs →
     call methods (resolve kind name (__name__ fn)).1
          (Given (resolve kind name (__name__ fn)).2) (Given kw)
     = decorated V kind name params returns fn kw) ∧
  (∀ k n kw stk,
     (k, n) ∉ keys attrs →
     ∃ e, call methods k (Given n) (Given kw) stk = (Raise (ExResource e), stk)
          ∧ code e = VInt 400).
Proof.
  intros Hinit. split.
  - intros kind name params returns sec fn kw Hin.
    pose proof (declared_is_registered V attrs methods kind name params returns sec fn
                  Hin Hinit) as Hreg.
    cbv beta delta [call or_default] iota zeta.
    destruct (resolve kind name (__name__ fn)) as [_k _n]. simpl. by rewrite Hreg.
  - intros k n kw stk Hnotin. cbv beta delta [call or_default] iota zeta.
    destruct (methods !! (k, n)) as [x|] eqn:Hl; [|by eexists].
    destruct Hnotin.
    apply (constructed_lookup_iff attrs methods (k, n) x Hinit) in Hl
      as (f & m & Hm & -> & _).
    unfold keys. apply list_elem_of_omap. by exists (Callable f (Some m)).
Qed.

Lemma constructed_resource_dispatch_witness :
  call test_methods (Some "action") (Given (Some "foo")) (Given []) []
  = (Return (VStr "hoot"), []).
Proof.
  destruct (constructed_resource_dispatch accept_all test_resource test_methods eq_refl)
    as [Hhit _].
  assert (Hin : declared accept_all None None None None None action_foo ∈ test_resource)
    by (right; right; left).
  etransitivity; [|reflexivity].
  apply (f_equal (fun g => g []) (Hhit None None None None None action_foo [] Hin)).
Defined.

(** ** Resolved names *)

Lemma split_once_snd_None (sep : ascii) (s h : string) :
  split_once sep s = (h, None) → h = s ∧ occurs sep s = false.
Proof.
  revert h. induction s as [|c s IH]; intros h; simpl.
  - by intros [= <-].
  - destruct (Ascii.eqb c sep); [discriminate|].
    destruct (split_once sep s) as [h' [t'|]]; [discriminate|].
    intros [= <-]. by destruct (IH h' eq_refl) as [-> ->].
Qed.

Lemma occurs_app_sep (sep : ascii) (h t : string) :
  occurs sep (h +:+ String sep t) = true.
Proof.
  induction h as [|c h IH]; simpl.
  - by rewrite Ascii.eqb_refl.
  - rewrite IH. apply orb_true_r.
Qed.

(** X8: without explicit arguments the resolved names rebuild the function's
    name: the kind holds no separator, and the name is absent exactly when the
    kind is the whole function name, and otherwise kind, ["_"] and name
    concatenate to the function name. *)
Theorem derived_names_rebuild_function_name (fname : string) :
  match resolve None None fname with
  | (Some k, Some n) => fname = k +:+ "_" +:+ n ∧ occurs "_" k = false
  | (Some k, None) => fname = k ∧ occurs "_" fname = false
  | (None, _) => False
  end.
Proof.
  rewrite resolve_derived. destruct (split_once "_" fname) as [h [t|]] eqn:Hs; simpl.
  - by apply split_once_Some in Hs.
  - by apply split_once_snd_None in Hs as [-> ?].
Qed.

(** X9: the resolved kind is always a string, and the resolved name is [None]
    exactly when no name was given and the function's name has no separator;
    only such operations are stored under [(kind, None)]. *)
Theorem resolved_name_None_iff (kind name : pystr) (fname : string) :
  is_Some (resolve kind name fname).1 ∧
  ((resolve kind name fname).2 = None ↔ name = None ∧ occurs "_" fname = false).
Proof.
  split; [apply resolve_kind_is_str|].
  unfold resolve, str_split_1. destruct (split_once "_" fname) as [h [t|]] eqn:Hs; simpl.
  - apply split_once_Some in Hs as [-> _]. split.
    + unfold py_or. destruct (truthy name) eqn:Ht; [|discriminate].
      intros ->. discriminate.
    + intros [_ Hocc]. by rewrite occurs_app_sep in Hocc.
  - apply split_once_snd_None in Hs as [-> Hocc]. split; [by intros ->|by intros [-> _]].
Qed.

Lemma resolved_name_None_iff_witness :
  (resolve (Some "query") None "widgets").2 = None ∧
  ¬ (resolve None None "create_widget").2 = None.
Proof.
  split.
  - apply (resolved_name_None_iff (Some "query") None "widgets"). split; reflexivity.
  - intros H. apply (resolved_name_None_iff None None "create_widget") in H as [_ H].
    discriminate H.
Defined.

(** ** Decorating on a live instance *)

Lemma register_all_app (l1 l2 : list attribute) (methods : registry) :
  register_all (l1 ++ l2) methods
  = match register_all l1 methods with
    | Return methods1 => register_all l2 methods1
    | Raise e => Raise e
    end.
Proof.
  revert methods. induction l1 as [|a rest IH]; intros methods; [done|].
  destruct a as [v|f [m|]]; [apply IH| |apply IH].
  rewrite <-app_comm_cons, !register_all_cons_tagged.
  destruct (_register_method methods (Some f) (kind m) (name m) (params m) (returns m)
              (security m)); [apply IH|done].
Qed.

(** The function [fn] bound to an instance whose table is [methods]. *)
Lemma method_bound_unfold (V : Validator) (kind name : pystr) (params returns : option schema)
    (sec : option policy) (fn : pyfunction) (methods : registry) :
  __self__ fn = Some methods →
  method V kind name params returns sec fn
  = match _register_method methods (Some (decorated V kind name params returns fn))
            (resolve kind name (__name__ fn)).1 (resolve kind name (__name__ fn)).2
            params returns sec with
    | Raise e => Raise e
    | Return methods' => Return (decorated V kind name params returns fn, Registered methods')
    end.
Proof.
  intros Hself. unfold method. destruct (resolve kind name (__name__ fn)) as [_k _n].
  by rewrite Hself.
Qed.

(** X10: decorating a function that is bound to a live instance registers it
    at once when its resolved key is free: every earlier entry is kept and
    [call] on the resolved key is the decorated callable; when the key is
    taken, the decorator itself fails with the [TypeError] of the
    one-argument [ResourceError] call. *)
Theorem method_on_bound_function (V : Validator) (kind name : pystr)
    (params returns : option schema) (sec : option policy) (fn : pyfunction)
    (methods : registry) :
  __self__ fn = Some methods →
  (methods !! resolve kind name (__name__ fn) = None →
   ∃ methods',
     method V kind name params returns sec fn
     = Return (decorated V kind name params returns fn, Registered methods')
     ∧ (∀ key x, methods !! key = Some x → methods' !! key = Some x)
     ∧ (∀ kw, call methods' (resolve kind name (__name__ fn)).1
                   (Given (resolve kind name (__name__ fn)).2) (Given kw)
              = decorated V kind name params returns fn kw)) ∧
  (is_Some (methods !! resolve kind name (__name__ fn)) →
   method V kind name params returns sec fn = Raise (ExTypeError duplicate_message)).
Proof.
  intros Hself. rewrite (method_bound_unfold V kind name params returns sec fn methods Hself).
  destruct (resolve kind name (__name__ fn)) as [_k _n]. simpl. split.
  - intros Hfree. rewrite _register_method_fresh by done. eexists. split; [done|]. split.
    + intros key x Hk. rewrite lookup_insert_ne; [done|]. intros <-. congruence.
    + intros kw. cbv beta delta [call or_default] iota zeta. by rewrite lookup_insert_eq.
  - intros Htaken. by rewrite _register_method_duplicate.
Qed.

Lemma method_on_bound_function_witness :
  call bound_foo_methods (Some "action") (Given (Some "foo")) (Given []) []
  = (Return (VStr "hoot"), []).
Proof.
  destruct (method_on_bound_function accept_all None None None None admin_only bound_foo ∅
              eq_refl) as [Hfree _].
  destruct (Hfree (lookup_empty _)) as (methods' & Hm & _ & Hcall).
  assert (methods' = bound_foo_methods) as -> by (injection Hm as <-; reflexivity).
  etransitivity; [|reflexivity].
  apply (f_equal (fun g => g []) (Hcall [])).
Defined.

(** X11: declaring an operation in the class body and declaring it later on
    the constructed instance come to the same: decorating the function bound
    to the instance built from [attrs] gives the table, or the failure, that
    construction gives for [attrs] followed by the declared operation. *)
Theorem class_body_and_live_declaration_agree (V : Validator) (attrs : list attribute)
    (methods : registry) (kind name : pystr) (params returns : option schema)
    (sec : option policy) (fn : pyfunction) :
  Resource___init__ attrs = Return methods →
  __self__ fn = Some methods →
  (∀ d methods', method V kind name params returns sec fn = Return (d, Registered methods') →
                 Resource___init__ (attrs ++ [declared V kind name params returns sec fn])
                 = Return methods') ∧
  (∀ e, method V kind name params returns sec fn = Raise e →
        Resource___init__ (attrs ++ [declared V kind name params returns sec fn]) = Raise e).
Proof.
  intros Hinit Hself.
  rewrite (method_bound_unfold V kind name params returns sec fn methods Hself).
  unfold Resource___init__ in *. rewrite List.filter_app, register_all_app, Hinit.
  unfold declared. simpl List.filter. rewrite register_all_cons_tagged.
  rewrite roax_method_fields. simpl.
  destruct (_register_method methods _ _ _ params returns sec) as [m1|e1].
  - split; [by intros d methods' [= _ <-]|discriminate].
  - split; [discriminate|by intros e [= <-]].
Qed.

Lemma class_body_and_live_declaration_agree_witness :
  Resource___init__ ([] ++ [declared accept_all None None None None admin_only bound_foo])
  = Return bound_foo_methods.
Proof.
  destruct (class_body_and_live_declaration_agree accept_all [] ∅ None None None None
              admin_only bound_foo eq_refl eq_refl) as [Hok _].
  apply (Hok (decorated accept_all None None None None bound_foo)). reflexivity.
Defined.

(** ** Codes of the error kinds *)

(** X12: the code of an error does not always tell its kind: Conflict and
    PreconditionFailed carry the same code, while the codes of BadRequest,
    Unauthorized, Forbidden, NotFound, Conflict and InternalServerError are
    pairwise different, whatever the details. *)
Theorem codes_distinct_except_412 (d1 d2 d3 d4 d5 d6 d7 r : pyval) :
  code (Conflict d5) = code (PreconditionFailed d6) ∧
  NoDup [code (BadRequest d1); code (Unauthorized r d2); code (Forbidden d3);
         code (NotFound d4); code (Conflict d5); code (InternalServerError d7)].
Proof.
  split; [reflexivity|]. simpl.
  repeat (apply NoDup_cons; split;
          [rewrite ?elem_of_cons, elem_of_nil; intros H;
           repeat (destruct H as [H|H]; [discriminate H|]); exact H|]).
  apply NoDup_nil_2.
Qed.

(** ** Registering what cannot be called *)

(** X13: [_register_method] does not check that what it stores can be called:
    registering [None] under a free key succeeds, and it is the later [call]
    on that key that fails, with a [TypeError] and not with the 400-coded
    lookup failure, leaving the context stack as it was. *)
Theorem register_None_fails_at_call (methods : registry) (k n : pystr)
    (p r : option schema) (s : option policy) (kw : kwargs) (stk : stack) :
  methods !! (k, n) = None →
  ∃ methods', _register_method methods None k n p r s = Return methods'
              ∧ ∃ msg, call methods' k (Given n) (Given kw) stk = (Raise (ExTypeError msg), stk).
Proof.
  intros Hfree. rewrite _register_method_fresh by done. eexists. split; [done|].
  cbv beta delta [call or_default] iota zeta. rewrite lookup_insert_eq. by eexists.
Qed.

Lemma register_None_fails_at_call_witness :
  ∃ methods', _register_method test_methods None (Some "query") None None None None
              = Return methods'
              ∧ ∃ msg, call methods' (Some "query") (Given None) (Given []) []
                       = (Raise (ExTypeError msg), []).
Proof.
  apply (register_None_fails_at_call test_methods (Some "query") None None None None [] []).
  reflexivity.
Defined.
